(** * scripts/clear_locomo_chunks.py

    A shallow embedding of the chunk-clearing runner and the properties of
    its console output and of the HTTP requests it issues.

    The script is a straight-line pass: look the dataset file up, decode it
    with [json.load], and post one clearing request per record, stopping at
    the first exception.  The embedding keeps that shape: [main] is written
    in a small monad that threads the state of the memory server, collects
    the observable events in the order they happen, and propagates Python
    exceptions.

    What lies outside the script is kept abstract:
    - the command line is taken as parsed ([namespace]);
    - the file system answers, for a path, whether the file exists, opens
      and decodes, and to which value ([file_state]);
    - [sample_id_to_uuid] comes from [locomo_utils] and is a field of
      [host], as are the texts Python renders for paths and for values
      that are not strings;
    - the memory server and the network are a state with a transition
      function that answers each request with a status code or with a
      transport failure such as a timeout;
    - [raise_for_status] is the one of httpx: it raises unless the status
      is in 200..299;
    - [print] writes a text to the standard output, whose encoding may not
      have every character: the host says which texts it can encode, and
      printing another one raises [UnicodeEncodeError] with nothing
      written. *)

From Stdlib Require Import String Ascii List ZArith Lia Bool Arith.
From Stdlib Require Import DecimalString.
Import ListNotations.

Local Open Scope list_scope.
Local Open Scope string_scope.

Set Warnings "-register-all".

(** ** Values decoded by [json.load] *)

(** A decoded JSON document.  A Python [str] is kept as the UTF-8 bytes of
    its text, a [dict] as its key/value pairs in iteration order, and a
    [float] by its literal (the runner never computes with one). *)
Inductive json : Type :=
| JNull
| JBool (b : bool)
| JInt (n : Z)
| JFloat (literal : string)
| JString (s : string)
| JList (items : list json)
| JObject (members : list (string * json)).

(** ** Exceptions *)

(** The ways in which [client.post] itself can raise. *)
Inductive transport_error : Type :=
| TimeoutException
| ConnectError
| OtherTransportError.

(** The exceptions that can leave [main]. *)
Inductive exn : Type :=
| OSError
| JSONDecodeError
| TypeError
| KeyError (key : string)
| HTTPStatusError (status : Z)
| TransportError (e : transport_error)
| UnicodeEncodeError.

(** ** The outside world *)

(** What the runner finds at the dataset path. *)
Inductive file_state : Type :=
| Absent                      (* [data_path.exists()] is false *)
| Unreadable                  (* exists, [open] raises *)
| Malformed                   (* opens, [json.load] raises *)
| Document (v : json).        (* opens and decodes to [v] *)

Inductive http_method : Type := GET | POST | PUT | DELETE.

(** One call of the HTTP client: the verb, the URL, the value passed as
    [json=] and the [timeout=] argument in seconds. *)
Record request : Type := mkRequest {
  req_method : http_method;
  req_url : string;
  req_json : json;
  req_timeout : Z
}.

(** What comes back from one call: a response with its status code, or a
    failure of the transport. *)
Inductive reply : Type :=
| Response (status_code : Z)
| Failed (e : transport_error).

(** The observable events of a run, in the order they happen. *)
Inductive event : Type :=
| Printed (line : string)
| ClientOpened
| Sent (r : request) (a : reply)
| ClientClosed.

(** The parsed command line: [--data] and [--base-url]. *)
Record namespace : Type := mkNamespace {
  data : string;
  base_url : string
}.

Definition default_args : namespace :=
  {| data := "benchmarks/EasyLocomo/data/locomo10.json";
     base_url := "http://localhost:1337" |}.

(** Everything local the runner relies on and this file does not define:
    the helper imported from [locomo_utils], the text Python produces for
    values and paths, the file system, and the encoding of the standard
    output. *)
Record host : Type := mkHost {
  (* [sample_id_to_uuid] on a [str] argument: a pure function to [str] *)
  sample_id_to_uuid : string -> string;
  (* [sample_id_to_uuid] on any other decoded value *)
  sample_id_to_uuid_nonstr : json -> exn + string;
  (* [str(v)] for a decoded value that is not a [str] *)
  str_nonstr : json -> string;
  (* [str(Path(p))] *)
  path_str : string -> string;
  (* the file system, by path *)
  files : string -> file_state;
  (* whether the encoding of the standard output has every character of a
     text *)
  stdout_encodes : string -> bool
}.

(** ** The monad of the runner *)

(** A computation starts from a state of the server and ends with a value
    or an exception, the events it caused, and the server's new state. *)
Definition M (Srv A : Type) : Type := Srv -> (exn + A) * list event * Srv.

Definition ret {Srv A} (a : A) : M Srv A :=
  fun s => (inr a, [], s).

Definition raise {Srv A} (e : exn) : M Srv A :=
  fun s => (inl e, [], s).

Definition bind {Srv A B} (c : M Srv A) (k : A -> M Srv B) : M Srv B :=
  fun s =>
    match c s with
    | (inl e, evs, s1) => (inl e, evs, s1)
    | (inr a, evs, s1) =>
        match k a s1 with
        | (r, evs', s2) => (r, (evs ++ evs')%list, s2)
        end
    end.

Definition lift {Srv A} (r : exn + A) : M Srv A :=
  fun s => (r, [], s).

Declare Scope runner_scope.
Delimit Scope runner_scope with runner.

Notation "x <- c ;; k" := (bind c (fun x => k))
  (at level 61, c at next level, right associativity) : runner_scope.
Notation "c ;;; k" := (bind c (fun _ => k))
  (at level 61, right associativity) : runner_scope.

(** [for x in xs: body], left at the first exception. *)
Fixpoint for_each {Srv A} (xs : list A) (body : A -> M Srv unit) : M Srv unit :=
  match xs with
  | [] => ret tt
  | x :: rest => bind (body x) (fun _ => for_each rest body)
  end.

(** [with httpx.Client() as client: body]: the client is closed on the way
    out, also when [body] raises. *)
Definition with_client {Srv A} (body : M Srv A) : M Srv A :=
  fun s =>
    match body s with
    | (r, evs, s1) => (r, ClientOpened :: (evs ++ [ClientClosed])%list, s1)
    end.

(** ** Python operations on decoded values *)

Fixpoint assoc (k : string) (m : list (string * json)) : option json :=
  match m with
  | [] => None
  | (k', v) :: rest => if String.eqb k k' then Some v else assoc k rest
  end.

(** A byte [10xxxxxx] continues the character started before it. *)
Definition is_continuation (c : ascii) : bool :=
  (128 <=? nat_of_ascii c)%nat && (nat_of_ascii c <? 192)%nat.

(** The continuation bytes at the front of [s], and the characters after. *)
Fixpoint utf8_split (s : string) : string * list string :=
  match s with
  | EmptyString => (EmptyString, [])
  | String c rest =>
      match utf8_split rest with
      | (k, cs) =>
          if is_continuation c then (String c k, cs)
          else (EmptyString, String c k :: cs)
      end
  end.

(** The characters of a [str], each as a one-character [str]. *)
Definition py_chars (s : string) : list string := snd (utf8_split s).

(** [len(v)] *)
Definition py_len (v : json) : exn + nat :=
  match v with
  | JList items => inr (length items)
  | JObject members => inr (length members)
  | JString s => inr (length (py_chars s))
  | JNull | JBool _ | JInt _ | JFloat _ => inl TypeError
  end.

(** The items [for sample in v] goes through: the elements of a list, the
    keys of a dict, the characters of a str. *)
Definition py_iter (v : json) : exn + list json :=
  match v with
  | JList items => inr items
  | JObject members => inr (map (fun kv => JString (fst kv)) members)
  | JString s => inr (map JString (py_chars s))
  | JNull | JBool _ | JInt _ | JFloat _ => inl TypeError
  end.

(** [v[k]] for a [str] key [k]. *)
Definition py_getitem (v : json) (k : string) : exn + json :=
  match v with
  | JObject members =>
      match assoc k members with
      | Some x => inr x
      | None => inl (KeyError k)
      end
  | _ => inl TypeError
  end.

(** [len(samples)] as the f-string renders it. *)
Definition dec (n : nat) : string := NilEmpty.string_of_uint (Nat.to_uint n).

(** U+2026, the ellipsis that ends the header line. *)
Definition ellipsis : string :=
  String (ascii_of_nat 226) (String (ascii_of_nat 128)
    (String (ascii_of_nat 166) EmptyString)).

(** ** httpx *)

(** [Response.is_success] *)
Definition is_success (status : Z) : bool :=
  (200 <=? status)%Z && (status <=? 299)%Z.

(** [resp.raise_for_status()] *)
Definition raise_for_status {Srv} (status : Z) : M Srv unit :=
  if is_success status then ret tt else raise (HTTPStatusError status).

Section Runner.

Variable h : host.

(** The memory server and the network in front of it: a state and what
    one call does to it. *)
Variable Srv : Type.
Variable serve : Srv -> request -> reply * Srv.

Local Open Scope runner_scope.

(** [client.post(url, json=body, timeout=t)]: the response comes back as
    its status code; a failure of the transport is raised. *)
Definition client_post (url : string) (body : json) (t : Z) : M Srv Z :=
  fun s =>
    let req := {| req_method := POST; req_url := url;
                  req_json := body; req_timeout := t |} in
    match serve s req with
    | (Response code, s1) => (inr code, [Sent req (Response code)], s1)
    | (Failed e, s1) => (inl (TransportError e), [Sent req (Failed e)], s1)
    end.

(** [print(line)]: the text is encoded for the standard output before any
    of it is written, and a text that cannot be encoded raises. *)
Definition print (line : string) : M Srv unit :=
  fun s =>
    if stdout_encodes h line then (inr tt, [Printed line], s)
    else (inl UnicodeEncodeError, [], s).

(** The call [sample_id_to_uuid(v)]. *)
Definition call_sample_id_to_uuid (v : json) : exn + string :=
  match v with
  | JString s => inr (sample_id_to_uuid h s)
  | _ => sample_id_to_uuid_nonstr h v
  end.

(** [str(v)], as an f-string field renders [v]. *)
Definition py_str (v : json) : string :=
  match v with
  | JString s => s
  | _ => str_nonstr h v
  end.

(** [open(data_path)] followed by [json.load(f)]. *)
Definition json_load_file (path : string) : exn + json :=
  match files h path with
  | Absent => inl OSError
  | Unreadable => inl OSError
  | Malformed => inl JSONDecodeError
  | Document v => inr v
  end.

(** [data_path.exists()] *)
Definition path_exists (path : string) : bool :=
  match files h path with
  | Absent => false
  | _ => true
  end.

(** The body of the [for] loop, for one [sample]. *)
Definition clear_sample (args : namespace) (sample : json) : M Srv unit :=
  sid <- lift (py_getitem sample "sample_id") ;;
  agent_id <- lift (call_sample_id_to_uuid sid) ;;
  resp <- client_post (base_url args ++ "/memory/clear-chunks")
                      (JObject [("agent_id", JString agent_id)]) 30 ;;
  raise_for_status resp ;;;
  shown <- lift (py_getitem sample "sample_id") ;;
  print ("  " ++ py_str shown ++ " (" ++ agent_id ++ "): cleared").

(** [main()], from the parsed arguments on. *)
Definition main (args : namespace) : M Srv unit :=
  let data_path := data args in
  if negb (path_exists data_path) then
    print ("Error: " ++ path_str h data_path ++ " not found")
  else
    samples <- lift (json_load_file data_path) ;;
    n <- lift (py_len samples) ;;
    print ("Clearing chunks for " ++ dec n ++ " LOCOMO agents" ++ ellipsis) ;;;
    with_client
      (items <- lift (py_iter samples) ;;
       for_each items (clear_sample args)) ;;;
    print "Done!".

End Runner.

Arguments print h {Srv} line _.
Arguments client_post {Srv} serve url body t _.
Arguments clear_sample h {Srv} serve args sample _.
Arguments main h {Srv} serve args _.

(** ** Reading a run *)

(** How [main] ended: [inr tt] when it returned, [inl e] when [e] left it. *)
Definition result_of {Srv A} (run : (exn + A) * list event * Srv) : exn + A :=
  fst (fst run).

Definition trace_of {Srv A} (run : (exn + A) * list event * Srv) : list event :=
  snd (fst run).

(** The requests issued, in the order they were issued. *)
Fixpoint requests (evs : list event) : list request :=
  match evs with
  | [] => []
  | Sent r _ :: rest => r :: requests rest
  | _ :: rest => requests rest
  end.

(** What each of them got back. *)
Fixpoint replies (evs : list event) : list reply :=
  match evs with
  | [] => []
  | Sent _ a :: rest => a :: replies rest
  | _ :: rest => replies rest
  end.

(** The lines printed, in order. *)
Fixpoint console (evs : list event) : list string :=
  match evs with
  | [] => []
  | Printed l :: rest => l :: console rest
  | _ :: rest => console rest
  end.

(** The script ends in [main()], so the interpreter exits with 0 when
    [main] returns and with 1 when an exception leaves it. *)
Definition exit_status {A} (r : exn + A) : Z :=
  match r with
  | inr _ => 0
  | inl _ => 1
  end.

(** A reply after which the loop goes on. *)
Definition reply_ok (a : reply) : bool :=
  match a with
  | Response code => is_success code
  | Failed _ => false
  end.

(** What a reply makes of the iteration that received it. *)
Definition settle (a : reply) : exn + unit :=
  match a with
  | Response code =>
      if is_success code then inr tt else inl (HTTPStatusError code)
  | Failed e => inl (TransportError e)
  end.

(** What an iteration makes of the reply and of the line it prints after
    a success. *)
Definition after_reply (h : host) (a : reply) (line : string) : exn + unit :=
  match settle a with
  | inl e => inl e
  | inr _ =>
      if stdout_encodes h line then inr tt else inl UnicodeEncodeError
  end.

(** What the end of [main] makes of the loop: the last [print]. *)
Definition finish (h : host) (r : exn + unit) : exn + unit :=
  match r with
  | inl e => inl e
  | inr _ =>
      if stdout_encodes h "Done!" then inr tt else inl UnicodeEncodeError
  end.

(** The [sample_id] of a well-formed record: an object whose [sample_id]
    member is a string. *)
Definition sample_id_of (v : json) : option string :=
  match v with
  | JObject members =>
      match assoc "sample_id" members with
      | Some (JString s) => Some s
      | _ => None
      end
  | _ => None
  end.

(** All the values of a list of options, when none is missing. *)
Fixpoint all_some {A} (l : list (option A)) : option (list A) :=
  match l with
  | [] => Some []
  | None :: _ => None
  | Some a :: rest =>
      match all_some rest with
      | Some xs => Some (a :: xs)
      | None => None
      end
  end.

(** The sample ids of a valid dataset, in file order: the document is a
    list, and every element is a well-formed record. *)
Definition sample_ids (v : json) : option (list string) :=
  match v with
  | JList items => all_some (map sample_id_of items)
  | _ => None
  end.

(** The clearing request for the record with sample id [sid]. *)
Definition clear_request (h : host) (args : namespace) (sid : string) : request :=
  {| req_method := POST;
     req_url := base_url args ++ "/memory/clear-chunks";
     req_json := JObject [("agent_id", JString (sample_id_to_uuid h sid))];
     req_timeout := 30 |}.

(** The progress line for the record with sample id [sid]. *)
Definition cleared_line (h : host) (sid : string) : string :=
  "  " ++ sid ++ " (" ++ sample_id_to_uuid h sid ++ "): cleared".

Definition header_line (n : nat) : string :=
  "Clearing chunks for " ++ dec n ++ " LOCOMO agents" ++ ellipsis.

(** What one iteration is about to do, before the server is involved: the
    exception it raises at once, or the request it sends and the line it
    prints if the reply is a success. *)
Definition prepare (h : host) (args : namespace) (sample : json)
  : exn + (request * string) :=
  match py_getitem sample "sample_id" with
  | inl e => inl e
  | inr sid =>
      match call_sample_id_to_uuid h sid with
      | inl e => inl e
      | inr agent_id =>
          inr ({| req_method := POST;
                  req_url := base_url args ++ "/memory/clear-chunks";
                  req_json := JObject [("agent_id", JString agent_id)];
                  req_timeout := 30 |},
               "  " ++ py_str h sid ++ " (" ++ agent_id ++ "): cleared")
      end
  end.

(** The values the loop goes through, when the file decodes to a value
    that can be iterated. *)
Definition dataset_items (h : host) (args : namespace) : list json :=
  match files h (data args) with
  | Document v =>
      match py_iter v with
      | inr items => items
      | inl _ => []
      end
  | _ => []
  end.

(** The request the loop issues for an item: the item has a [sample_id],
    the helper gives an identifier for it (for a string, the one of
    [sample_id_to_uuid]), and the request posts that identifier. *)
Definition request_of_item (h : host) (args : namespace)
  (item : json) (r : request) : Prop :=
  exists sid agent_id,
    py_getitem item "sample_id" = inr sid /\
    call_sample_id_to_uuid h sid = inr agent_id /\
    (forall text, sid = JString text -> agent_id = sample_id_to_uuid h text) /\
    req_method r = POST /\
    req_url r = base_url args ++ "/memory/clear-chunks" /\
    req_json r = JObject [("agent_id", JString agent_id)].

(** The shape every clearing request has. *)
Definition is_clear_request (args : namespace) (r : request) : Prop :=
  req_method r = POST /\
  req_url r = base_url args ++ "/memory/clear-chunks" /\
  (exists agent_id, req_json r = JObject [("agent_id", JString agent_id)]) /\
  req_timeout r = 30%Z.

(** The lines after the loop: ["Done!"] when the loop was not left by an
    exception. *)
Definition closing_lines (r : exn + unit) : list event :=
  match r with
  | inr _ => [Printed "Done!"]
  | inl _ => []
  end.

(** ** Concrete hosts and servers *)

(** The identifiers of the two-record scenario: [A] is [u1], [B] is [u2]. *)
Definition demo_uuid (s : string) : string :=
  if String.eqb s "A" then "u1"
  else if String.eqb s "B" then "u2"
  else "u-" ++ s.

(** A host whose only file is [locomo10.json], in state [f]. *)
Definition demo_host (f : file_state) : host :=
  {| sample_id_to_uuid := demo_uuid;
     sample_id_to_uuid_nonstr := fun _ => inl TypeError;
     str_nonstr := fun _ => "None";
     path_str := fun p => p;
     files := fun p => if String.eqb p "locomo10.json" then f else Absent;
     stdout_encodes := fun _ => true |}.

(** Whether a text is plain ASCII. *)
Fixpoint is_ascii (s : string) : bool :=
  match s with
  | EmptyString => true
  | String c rest => (nat_of_ascii c <? 128)%nat && is_ascii rest
  end.

(** The same host with a standard output that encodes ASCII only. *)
Definition ascii_host (f : file_state) : host :=
  {| sample_id_to_uuid := demo_uuid;
     sample_id_to_uuid_nonstr := fun _ => inl TypeError;
     str_nonstr := fun _ => "None";
     path_str := fun p => p;
     files := fun p => if String.eqb p "locomo10.json" then f else Absent;
     stdout_encodes := is_ascii |}.


Definition demo_args : namespace :=
  {| data := "locomo10.json"; base_url := "http://localhost:1337" |}.

Definition record_A : json := JObject [("sample_id", JString "A")].
Definition record_B : json := JObject [("sample_id", JString "B")].
Definition two_records : json := JList [record_A; record_B].

(** A server that answers every request with the same status. *)
Definition always (code : Z) (s : unit) (r : request) : reply * unit :=
  (Response code, s).

(** A server that counts the requests and answers request number [k]
    (from 0) with [bad], the others with 200. *)
Definition nth_fails (k : nat) (bad : reply) (s : nat) (r : request)
  : reply * nat :=
  (if Nat.eqb s k then bad else Response 200, S s).

(** The events the loop itself causes: requests and printed lines. *)
Definition is_loop_event (e : event) : bool :=
  match e with
  | Sent _ _ | Printed _ => true
  | ClientOpened | ClientClosed => false
  end.

(** The requests that were followed at once by a printed line, each with
    its reply and that line. *)
Fixpoint sent_then_printed (evs : list event)
  : list (request * reply * string) :=
  match evs with
  | [] => []
  | Sent r a :: rest =>
      match rest with
      | Printed l :: _ => (r, a, l) :: sent_then_printed rest
      | _ => sent_then_printed rest
      end
  | _ :: rest => sent_then_printed rest
  end.

(** The number of requests that were answered with a success. *)
Definition accepted (evs : list event) : nat :=
  length (filter reply_ok (replies evs)).

(** A server that never answers in time. *)
Definition times_out (s : unit) (r : request) : reply * unit :=
  (Failed TimeoutException, s).

(** ** Traces *)

Lemma all_some_map {A} (l : list (option A)) (xs : list A) :
  all_some l = Some xs -> l = map Some xs.
Proof.
  revert xs. induction l as [|[a|] l IH]; intros xs; cbn.
  - intros [= <-]. reflexivity.
  - destruct (all_some l) as [ys|]; [|discriminate].
    intros [= <-]. cbn. rewrite (IH ys eq_refl). reflexivity.
  - discriminate.
Qed.

Lemma sample_ids_items (v : json) (sids : list string) :
  sample_ids v = Some sids ->
  exists items,
    v = JList items /\ py_iter v = inr items /\
    map sample_id_of items = map Some sids /\ length items = length sids.
Proof.
  destruct v as [| | | | |items|]; try discriminate. cbn.
  intros Hs. apply all_some_map in Hs. exists items.
  repeat split; [exact Hs|].
  rewrite <- (length_map sample_id_of), Hs, length_map. reflexivity.
Qed.

Lemma requests_closing (r : exn + unit) :
  requests (ClientClosed :: closing_lines r) = [].
Proof. destruct r as [e|[]]; reflexivity. Qed.

Lemma replies_closing (r : exn + unit) :
  replies (ClientClosed :: closing_lines r) = [].
Proof. destruct r as [e|[]]; reflexivity. Qed.


Lemma requests_app (u v : list event) :
  requests (u ++ v) = (requests u ++ requests v)%list.
Proof.
  induction u as [|e u IH]; [reflexivity|].
  destruct e; simpl; rewrite IH; reflexivity.
Qed.

Lemma replies_app (u v : list event) :
  replies (u ++ v) = (replies u ++ replies v)%list.
Proof.
  induction u as [|e u IH]; [reflexivity|].
  destruct e; simpl; rewrite IH; reflexivity.
Qed.

Lemma console_app (u v : list event) :
  console (u ++ v) = (console u ++ console v)%list.
Proof.
  induction u as [|e u IH]; [reflexivity|].
  destruct e; simpl; rewrite IH; reflexivity.
Qed.

Lemma settle_inr (a : reply) : settle a = inr tt <-> reply_ok a = true.
Proof.
  destruct a as [code|e]; simpl.
  - destruct (is_success code); split; congruence.
  - split; congruence.
Qed.

Lemma settle_inl (a : reply) :
  reply_ok a = false -> exists e, settle a = inl e.
Proof.
  destruct a as [code|e]; simpl.
  - intros ->. eauto.
  - eauto.
Qed.

Lemma is_success_range (code : Z) :
  is_success code = true <-> (200 <= code <= 299)%Z.
Proof. unfold is_success. rewrite andb_true_iff, !Z.leb_le. tauto. Qed.

Lemma after_reply_inr (h : host) (a : reply) (line : string) :
  after_reply h a line = inr tt <->
  reply_ok a = true /\ stdout_encodes h line = true.
Proof.
  unfold after_reply. destruct (settle a) as [e|[]] eqn:St.
  - split; [discriminate|]. intros (Ok & _).
    apply settle_inr in Ok. congruence.
  - apply settle_inr in St. rewrite St.
    destruct (stdout_encodes h line); split; try discriminate; auto.
    intros (_ & [=]).
Qed.

Lemma after_reply_bad (h : host) (a : reply) (line : string) :
  reply_ok a = false -> after_reply h a line = settle a.
Proof.
  intros Bad. unfold after_reply.
  destruct (settle_inl a Bad) as (e & ->). reflexivity.
Qed.

Lemma after_reply_ok (h : host) (a : reply) (line : string) :
  reply_ok a = true ->
  after_reply h a line =
  if stdout_encodes h line then inr tt else inl UnicodeEncodeError.
Proof.
  intros Ok. unfold after_reply. apply settle_inr in Ok. rewrite Ok.
  reflexivity.
Qed.

(** ** One iteration *)

Section Loop.

Variable h : host.
Variable Srv : Type.
Variable serve : Srv -> request -> reply * Srv.
Variable args : namespace.

(** An iteration either raises before the server is contacted, or sends
    the prepared request once; then the reply, and after a success the
    printing of the line, decide. *)
Lemma clear_sample_eq (sample : json) (s : Srv) :
  clear_sample h serve args sample s =
  match prepare h args sample with
  | inl e => (inl e, [], s)
  | inr (req, line) =>
      match after_reply h (fst (serve s req)) line with
      | inl e => (inl e, [Sent req (fst (serve s req))], snd (serve s req))
      | inr _ =>
          (inr tt, [Sent req (fst (serve s req)); Printed line],
           snd (serve s req))
      end
  end.
Proof.
  unfold clear_sample, prepare, after_reply, bind, lift, client_post,
    raise_for_status, print.
  destruct (py_getitem sample "sample_id") as [e|sid]; [reflexivity|].
  destruct (call_sample_id_to_uuid h sid) as [e|agent_id]; [reflexivity|].
  match goal with |- context [serve s ?r] => destruct (serve s r) as [[code|e] s1] end;
    cbn [fst snd settle]; [|reflexivity].
  destruct (is_success code); [|reflexivity].
  cbn [ret raise]. destruct (stdout_encodes h _); reflexivity.
Qed.

(** The loop of [main] over [items], from server state [s]. *)
Local Abbreviation loop items s := (for_each items (clear_sample h serve args) s).

(** The loop, unfolded by one iteration. *)
Lemma loop_cons (x : json) (xs : list json) (s : Srv) :
  loop (x :: xs) s =
  match prepare h args x with
  | inl e => (inl e, [], s)
  | inr (req, line) =>
      match after_reply h (fst (serve s req)) line with
      | inl e => (inl e, [Sent req (fst (serve s req))], snd (serve s req))
      | inr _ =>
          (result_of (loop xs (snd (serve s req))),
           Sent req (fst (serve s req)) :: Printed line ::
             trace_of (loop xs (snd (serve s req))),
           snd (loop xs (snd (serve s req))))
      end
  end.
Proof.
  cbn [for_each]. unfold bind at 1. rewrite clear_sample_eq.
  destruct (prepare h args x) as [e|[req line]]; [reflexivity|].
  destruct (after_reply h (fst (serve s req)) line) as [e|[]]; [reflexivity|].
  destruct (for_each xs _ _) as [[r evs] s2]. reflexivity.
Qed.

Lemma prepare_shape (x : json) (req : request) (line : string) :
  prepare h args x = inr (req, line) -> is_clear_request args req.
Proof.
  unfold prepare.
  destruct (py_getitem x "sample_id") as [e|sid]; [discriminate|].
  destruct (call_sample_id_to_uuid h sid) as [e|agent_id]; [discriminate|].
  intros [= <- _]. repeat split. exists agent_id. reflexivity.
Qed.

Lemma prepare_valid (x : json) (sid : string) :
  sample_id_of x = Some sid ->
  prepare h args x = inr (clear_request h args sid, cleared_line h sid).
Proof.
  unfold sample_id_of, prepare, py_getitem.
  destruct x as [| | | | |items|members]; try discriminate.
  destruct (assoc "sample_id" members) as [[| | | |s| |]|]; try discriminate.
  intros [= ->]. reflexivity.
Qed.

Lemma prepare_missing (members : list (string * json)) :
  assoc "sample_id" members = None ->
  prepare h args (JObject members) = inl (KeyError "sample_id").
Proof. unfold prepare, py_getitem. intros ->. reflexivity. Qed.

(** Every request of the loop is a clearing request. *)
Lemma loop_requests_shape (items : list json) (s : Srv) :
  Forall (is_clear_request args) (requests (trace_of (loop items s))).
Proof.
  revert s. induction items as [|x xs IH]; intros s; [constructor|].
  rewrite loop_cons.
  destruct (prepare h args x) as [e|[req line]] eqn:P; [constructor|].
  apply prepare_shape in P.
  destruct (after_reply _ _ _) as [e|[]]; cbn.
  - constructor; [exact P | constructor].
  - constructor; [exact P | apply IH].
Qed.

(** A reply that is not a success is the last event of the loop, and
    decides how the loop ends. *)
Lemma loop_failure_last (items : list json) (s : Srv) (req : request) (a : reply) :
  In (Sent req a) (trace_of (loop items s)) ->
  reply_ok a = false ->
  exists pre,
    trace_of (loop items s) = (pre ++ [Sent req a])%list /\
    result_of (loop items s) = settle a.
Proof.
  revert s. induction items as [|x xs IH]; intros s Hin Hbad; [destruct Hin|].
  rewrite loop_cons in *.
  destruct (prepare h args x) as [e|[rq line]]; [destruct Hin|].
  destruct (after_reply h (fst (serve s rq)) line) as [e|[]] eqn:St.
  - cbn in Hin. destruct Hin as [[= E1 E2]|[]]; subst req a.
    exists []. split; [reflexivity|]. cbn.
    rewrite <- St. apply after_reply_bad. exact Hbad.
  - cbn in Hin. destruct Hin as [[= E1 E2]|[[=]|Hin]]; [subst req a|].
    + apply after_reply_inr in St. destruct St as (Ok & _). congruence.
    + destruct (IH _ Hin Hbad) as (pre & Ht & Hr).
      exists (Sent rq (fst (serve s rq)) :: Printed line :: pre).
      cbn. rewrite Ht. split; [reflexivity | exact Hr].
Qed.

(** After a reply that is a success the loop prints a line, unless that
    line cannot be encoded: then the loop ends there. *)
Lemma loop_success_next (items : list json) (s : Srv) (req : request) (a : reply) :
  In (Sent req a) (trace_of (loop items s)) ->
  reply_ok a = true ->
  (exists pre line post,
     trace_of (loop items s) = (pre ++ Sent req a :: Printed line :: post)%list) \/
  (exists pre,
     trace_of (loop items s) = (pre ++ [Sent req a])%list /\
     result_of (loop items s) = inl UnicodeEncodeError).
Proof.
  revert s. induction items as [|x xs IH]; intros s Hin Hok; [destruct Hin|].
  rewrite loop_cons in *.
  destruct (prepare h args x) as [e|[rq line]]; [destruct Hin|].
  destruct (after_reply h (fst (serve s rq)) line) as [e|[]] eqn:St.
  - cbn in Hin. destruct Hin as [[= E1 E2]|[]]; subst req a.
    right. exists []. split; [reflexivity|]. cbn.
    rewrite (after_reply_ok _ _ _ Hok) in St.
    destruct (stdout_encodes h line); [discriminate|]. congruence.
  - cbn in Hin. destruct Hin as [[= E1 E2]|[[=]|Hin]]; [subst req a|].
    + left. exists [], line. eexists. reflexivity.
    + destruct (IH _ Hin Hok) as [(pre & l & post & Ht)|(pre & Ht & Hr)].
      * left.
        exists (Sent rq (fst (serve s rq)) :: Printed line :: pre), l, post.
        cbn. rewrite Ht. reflexivity.
      * right. exists (Sent rq (fst (serve s rq)) :: Printed line :: pre).
        cbn. rewrite Ht. split; [reflexivity | exact Hr].
Qed.

(** Every line the loop prints is indented by two spaces. *)
Lemma loop_console_indented (items : list json) (s : Srv) :
  Forall (fun l => exists rest, l = "  " ++ rest)
         (console (trace_of (loop items s))).
Proof.
  revert s. induction items as [|x xs IH]; intros s; [constructor|].
  rewrite loop_cons.
  destruct (prepare h args x) as [e|[req line]] eqn:P; [constructor|].
  destruct (after_reply _ _ _) as [e|[]]; cbn; [constructor|].
  constructor; [|apply IH].
  unfold prepare in P.
  destruct (py_getitem x "sample_id") as [e|sid]; [discriminate|].
  destruct (call_sample_id_to_uuid h sid) as [e|agent_id]; [discriminate|].
  injection P as _ <-. eexists. reflexivity.
Qed.

(** An item that raises before its request stops the loop: the loop ends
    in an exception, with no request for that item or a later one. *)
Lemma loop_raises (pre post : list json) (x : json) (e0 : exn) (s : Srv) :
  prepare h args x = inl e0 ->
  exists e,
    result_of (loop (pre ++ x :: post) s) = inl e /\
    length (requests (trace_of (loop (pre ++ x :: post) s))) <= length pre.
Proof.
  intros Px. revert s. induction pre as [|y pre IH]; intros s.
  - cbn [app]. rewrite loop_cons, Px. exists e0. split; [reflexivity|].
    cbn. lia.
  - cbn [app]. rewrite loop_cons.
    destruct (prepare h args y) as [e|[req line]].
    + exists e. split; [reflexivity | cbn; lia].
    + destruct (after_reply _ _ _) as [e|[]].
      * exists e. split; [reflexivity | cbn; lia].
      * destruct (IH (snd (serve s req))) as (e & Hr & Hn).
        exists e. split; [exact Hr | cbn; lia].
Qed.

(** Over well-formed records, the requests issued are those of the
    first [k] records, in order. *)
Lemma loop_valid_prefix (items : list json) (sids : list string) (s : Srv) :
  map sample_id_of items = map Some sids ->
  exists k,
    k <= length sids /\
    requests (trace_of (loop items s)) =
      firstn k (map (clear_request h args) sids).
Proof.
  revert sids s. induction items as [|x xs IH]; intros [|sid sids] s Hv;
    try discriminate.
  - exists 0. split; [cbn; lia | reflexivity].
  - cbn in Hv. injection Hv as Hx Hxs.
    rewrite loop_cons, (prepare_valid _ _ Hx).
    destruct (after_reply _ _ _) as [e|[]].
    + exists 1. split; [cbn; lia | reflexivity].
    + destruct (IH sids (snd (serve s (clear_request h args sid))) Hxs)
        as (k & Hk & Hreq).
      exists (S k). split; [cbn; lia|]. cbn. rewrite Hreq. reflexivity.
Qed.

(** Over well-formed records, a loop that was not left by an exception
    went through every record, and every reply was a success. *)
Lemma loop_valid_returned (items : list json) (sids : list string) (s : Srv) :
  map sample_id_of items = map Some sids ->
  result_of (loop items s) = inr tt ->
  forallb reply_ok (replies (trace_of (loop items s))) = true /\
  requests (trace_of (loop items s)) = map (clear_request h args) sids /\
  console (trace_of (loop items s)) = map (cleared_line h) sids.
Proof.
  revert sids s. induction items as [|x xs IH]; intros [|sid sids] s Hv Hret;
    try discriminate.
  - repeat split.
  - cbn in Hv. injection Hv as Hx Hxs.
    rewrite loop_cons, (prepare_valid _ _ Hx) in *.
    destruct (after_reply _ _ _) as [e|[]] eqn:St; [discriminate|].
    destruct (IH sids _ Hxs Hret) as (Hok & Hq & Hc).
    cbn. rewrite Hq, Hc, Hok.
    apply after_reply_inr in St. destruct St as (-> & _). repeat split.
Qed.

End Loop.

(** ** Two runs of the loop *)

Section TwoLoops.

Variable h : host.
Variable args : namespace.
Variables Srv1 Srv2 : Type.
Variable serve1 : Srv1 -> request -> reply * Srv1.
Variable serve2 : Srv2 -> request -> reply * Srv2.

(** When every reply is a success, what the loop does no longer depends
    on the server. *)
Lemma loop_success_determined (items : list json) (s1 : Srv1) (s2 : Srv2) :
  let run1 := for_each items (clear_sample h serve1 args) s1 in
  let run2 := for_each items (clear_sample h serve2 args) s2 in
  forallb reply_ok (replies (trace_of run1)) = true ->
  forallb reply_ok (replies (trace_of run2)) = true ->
  result_of run1 = result_of run2 /\
  requests (trace_of run1) = requests (trace_of run2) /\
  console (trace_of run1) = console (trace_of run2).
Proof.
  cbv zeta. revert s1 s2. induction items as [|x xs IH]; intros s1 s2.
  - repeat split.
  - rewrite !loop_cons.
    destruct (prepare h args x) as [e|[req line]]; [repeat split|].
    destruct (after_reply h (fst (serve1 s1 req)) line) as [e1|[]] eqn:St1;
      destruct (after_reply h (fst (serve2 s2 req)) line) as [e2|[]] eqn:St2;
      cbn; intros H1 H2;
      apply andb_true_iff in H1 as [Ok1 H1];
      apply andb_true_iff in H2 as [Ok2 H2];
      rewrite (after_reply_ok _ _ _ Ok1) in St1;
      rewrite (after_reply_ok _ _ _ Ok2) in St2;
      destruct (stdout_encodes h line); try discriminate.
    + repeat split. congruence.
    + destruct (IH (snd (serve1 s1 req)) (snd (serve2 s2 req)) H1 H2)
        as (Hr & Hq & Hc).
      rewrite Hr, Hq, Hc. repeat split.
Qed.

End TwoLoops.

(** ** The whole run *)

Lemma py_iter_of_len (v : json) (n : nat) :
  py_len v = inr n ->
  exists items, py_iter v = inr items /\ length items = n.
Proof.
  destruct v as [| | | |s|items|members]; try discriminate;
    intros [= <-]; eexists; (split; [reflexivity|]);
    rewrite ?length_map; reflexivity.
Qed.

Section Main.

Variable h : host.
Variable Srv : Type.
Variable serve : Srv -> request -> reply * Srv.
Variable args : namespace.

Local Abbreviation loop items s := (for_each items (clear_sample h serve args) s).

Lemma main_absent (s : Srv) :
  files h (data args) = Absent ->
  main h serve args s =
    if stdout_encodes h ("Error: " ++ path_str h (data args) ++ " not found")
    then
      (inr tt,
       [Printed ("Error: " ++ path_str h (data args) ++ " not found")], s)
    else (inl UnicodeEncodeError, [], s).
Proof. intros F. unfold main, path_exists, print. rewrite F. reflexivity. Qed.

Lemma main_unreadable (s : Srv) :
  files h (data args) = Unreadable ->
  main h serve args s = (inl OSError, [], s).
Proof.
  intros F. unfold main, path_exists, json_load_file, bind, lift.
  rewrite F. reflexivity.
Qed.

Lemma main_malformed (s : Srv) :
  files h (data args) = Malformed ->
  main h serve args s = (inl JSONDecodeError, [], s).
Proof.
  intros F. unfold main, path_exists, json_load_file, bind, lift.
  rewrite F. reflexivity.
Qed.

(** A document that has no length is refused before anything happens. *)
Lemma main_no_len (v : json) (e : exn) (s : Srv) :
  files h (data args) = Document v ->
  py_len v = inl e ->
  main h serve args s = (inl e, [], s).
Proof.
  intros F L. unfold main, path_exists, json_load_file, bind, lift.
  rewrite F. cbn. rewrite L. reflexivity.
Qed.

Lemma py_len_of_iter (v : json) (items : list json) :
  py_iter v = inr items -> py_len v = inr (length items).
Proof.
  destruct v; try discriminate; intros [= <-];
    cbn; rewrite ?length_map; reflexivity.
Qed.

(** A header that cannot be encoded ends the run before the client is
    created. *)
Lemma main_header_refused (v : json) (items : list json) (s : Srv) :
  files h (data args) = Document v ->
  py_iter v = inr items ->
  stdout_encodes h (header_line (length items)) = false ->
  main h serve args s = (inl UnicodeEncodeError, [], s).
Proof.
  intros F I Hd.
  unfold main, path_exists, json_load_file, bind, lift, print.
  rewrite F. cbn [negb]. rewrite (py_len_of_iter _ _ I).
  fold (header_line (length items)). rewrite Hd. reflexivity.
Qed.

(** Otherwise the run is the header line, the loop inside the client's
    context, and the closing line when the loop was not left by an
    exception and ["Done!"] can be printed. *)
Lemma main_document (v : json) (items : list json) (s : Srv) :
  files h (data args) = Document v ->
  py_iter v = inr items ->
  stdout_encodes h (header_line (length items)) = true ->
  main h serve args s =
    (finish h (result_of (loop items s)),
     Printed (header_line (length items)) :: ClientOpened ::
       (trace_of (loop items s) ++
        ClientClosed :: closing_lines (finish h (result_of (loop items s))))%list,
     snd (loop items s)).
Proof.
  intros F I Hd.
  unfold main, path_exists, json_load_file, bind, lift, with_client, print,
    finish.
  rewrite F. cbn [negb]. rewrite (py_len_of_iter _ _ I), I.
  fold (header_line (length items)). rewrite Hd.
  cbn [fst snd app].
  destruct (for_each items _ s) as [[[e|[]] evs] s1]; cbn [fst snd result_of trace_of].
  - reflexivity.
  - destruct (stdout_encodes h "Done!"); cbn [closing_lines app];
      rewrite <- ?app_assoc, ?app_nil_r; reflexivity.
Qed.

(** The three ways a run can go. *)
Lemma main_cases (s : Srv) :
  (files h (data args) = Absent /\
   result_of (main h serve args s) = inr tt /\
   trace_of (main h serve args s) =
     [Printed ("Error: " ++ path_str h (data args) ++ " not found")]) \/
  ((exists e, result_of (main h serve args s) = inl e) /\
   trace_of (main h serve args s) = []) \/
  (exists v items,
     files h (data args) = Document v /\
     py_iter v = inr items /\
     stdout_encodes h (header_line (length items)) = true /\
     result_of (main h serve args s) = finish h (result_of (loop items s)) /\
     trace_of (main h serve args s) =
       Printed (header_line (length items)) :: ClientOpened ::
         (trace_of (loop items s) ++
          ClientClosed ::
          closing_lines (finish h (result_of (loop items s))))%list).
Proof.
  destruct (files h (data args)) as [| | |v] eqn:F.
  - rewrite (main_absent s F).
    destruct (stdout_encodes h _).
    + left. repeat split.
    + right; left. split; [eexists|]; reflexivity.
  - right; left. rewrite (main_unreadable s F).
    split; [eexists|]; reflexivity.
  - right; left. rewrite (main_malformed s F).
    split; [eexists|]; reflexivity.
  - destruct (py_len v) as [e|n] eqn:L.
    + right; left. rewrite (main_no_len v e s F L).
      split; [eexists|]; reflexivity.
    + destruct (py_iter_of_len _ _ L) as (items & I & _).
      destruct (stdout_encodes h (header_line (length items))) eqn:Hd.
      * right; right. exists v, items.
        rewrite (main_document v items s F I Hd). repeat split; assumption.
      * right; left. rewrite (main_header_refused v items s F I Hd).
        split; [eexists|]; reflexivity.
Qed.

Lemma loop_never_done (items : list json) (s : Srv) :
  ~ In "Done!" (console (trace_of (loop items s))).
Proof.
  intros Hd.
  pose proof (loop_console_indented h Srv serve args items s) as Hind.
  rewrite Forall_forall in Hind.
  destruct (Hind _ Hd) as (rest & [=]).
Qed.

(** A reply that is not a success is followed by the closing of the
    client and by nothing else, and the run ends in its exception. *)
Lemma main_failure_last (s : Srv) (req : request) (a : reply) :
  In (Sent req a) (trace_of (main h serve args s)) ->
  reply_ok a = false ->
  exists pre,
    trace_of (main h serve args s) = (pre ++ [Sent req a; ClientClosed])%list /\
    result_of (main h serve args s) = settle a /\
    ~ In "Done!" (console (trace_of (main h serve args s))).
Proof.
  intros Hin Hbad.
  destruct (main_cases s)
    as [(_ & _ & Et)|[(_ & Et)|(v & items & _ & _ & _ & Er & Et)]];
    rewrite Et in *; clear Et.
  - destruct Hin as [[=]|[]].
  - destruct Hin.
  - rewrite Er; clear Er.
    destruct Hin as [[=]|[[=]|Hin]].
    apply in_app_or in Hin as [Hin|[[=]|Hin]].
    + destruct (loop_failure_last _ _ _ _ _ _ _ _ Hin Hbad) as (pre & Ht & Hr).
      destruct (settle_inl _ Hbad) as (e & Hs).
      pose proof (loop_never_done items s) as Hnd.
      rewrite Hr, Hs. rewrite Ht in *. cbn [finish closing_lines].
      exists (Printed (header_line (length items)) :: ClientOpened :: pre).
      split; [cbn [app]; rewrite <- app_assoc; reflexivity|].
      split; [reflexivity|].
      cbn [console]. rewrite console_app. cbn [console].
      rewrite app_nil_r. intros [[=]|Hd]. exact (Hnd Hd).
    + destruct (finish h (result_of (loop items s))) as [e|[]];
        [destruct Hin | destruct Hin as [[=]|[]]].
Qed.

(** After a reply that is a success the run prints a line, unless that
    line cannot be encoded: then the client is closed and the run is
    over. *)
Lemma main_success_next (s : Srv) (req : request) (a : reply) :
  In (Sent req a) (trace_of (main h serve args s)) ->
  reply_ok a = true ->
  (exists pre line post,
     trace_of (main h serve args s) =
       (pre ++ Sent req a :: Printed line :: post)%list) \/
  (exists pre,
     trace_of (main h serve args s) = (pre ++ [Sent req a; ClientClosed])%list /\
     result_of (main h serve args s) = inl UnicodeEncodeError).
Proof.
  intros Hin Hok.
  destruct (main_cases s)
    as [(_ & _ & Et)|[(_ & Et)|(v & items & _ & _ & _ & Er & Et)]];
    rewrite Et in *; clear Et.
  - destruct Hin as [[=]|[]].
  - destruct Hin.
  - destruct Hin as [[=]|[[=]|Hin]].
    apply in_app_or in Hin as [Hin|[[=]|Hin]].
    + destruct (loop_success_next _ _ _ _ _ _ _ _ Hin Hok)
        as [(pre & line & post & Ht)|(pre & Ht & Hr)].
      * left. rewrite Ht.
        exists (Printed (header_line (length items)) :: ClientOpened :: pre),
          line.
        eexists. cbn [app]. rewrite <- app_assoc. reflexivity.
      * right. rewrite Er, Hr, Ht. cbn [finish closing_lines].
        exists (Printed (header_line (length items)) :: ClientOpened :: pre).
        split; [cbn [app]; rewrite <- app_assoc; reflexivity | reflexivity].
    + destruct (finish h (result_of (loop items s))) as [e|[]];
        [destruct Hin | destruct Hin as [[=]|[]]].
Qed.

(** Every request of a run is a clearing request. *)
Lemma main_requests_shape (s : Srv) :
  Forall (is_clear_request args) (requests (trace_of (main h serve args s))).
Proof.
  destruct (main_cases s)
    as [(_ & _ & Et)|[(_ & Et)|(v & items & _ & _ & _ & Er & Et)]];
    rewrite Et; clear Et; try constructor.
  cbn [requests]. rewrite requests_app, requests_closing, app_nil_r.
  apply loop_requests_shape.
Qed.

End Main.

(** ** Runs over a valid dataset *)

Section ValidDataset.

Variable h : host.
Variable Srv : Type.
Variable serve : Srv -> request -> reply * Srv.
Variable args : namespace.
Variable v : json.
Variable sids : list string.

Hypothesis file_holds : files h (data args) = Document v.
Hypothesis file_valid : sample_ids v = Some sids.

(** Over a valid dataset the run stops at a header that cannot be
    encoded, or is the header, the loop over the records, and the closing
    line. *)
Lemma main_valid (s : Srv) :
  (main h serve args s = (inl UnicodeEncodeError, [], s)) \/
  exists items,
    map sample_id_of items = map Some sids /\
    result_of (main h serve args s) =
      finish h (result_of (for_each items (clear_sample h serve args) s)) /\
    trace_of (main h serve args s) =
      Printed (header_line (length sids)) :: ClientOpened ::
        (trace_of (for_each items (clear_sample h serve args) s) ++
         ClientClosed ::
         closing_lines
           (finish h
              (result_of (for_each items (clear_sample h serve args) s))))%list.
Proof.
  destruct (sample_ids_items _ _ file_valid) as (items & _ & I & Hv & Hl).
  destruct (stdout_encodes h (header_line (length items))) eqn:Hd.
  - right. exists items.
    rewrite (main_document h Srv serve args v items s file_holds I Hd).
    rewrite Hl. repeat split. exact Hv.
  - left. exact (main_header_refused h Srv serve args v items s file_holds I Hd).
Qed.

Lemma finish_inr (r : exn + unit) :
  finish h r = inr tt -> r = inr tt.
Proof. destruct r as [e|[]]; [discriminate | reflexivity]. Qed.

Lemma main_valid_requests (s : Srv) :
  result_of (main h serve args s) = inr tt ->
  requests (trace_of (main h serve args s)) = map (clear_request h args) sids.
Proof.
  destruct (main_valid s) as [E|(items & Hv & Er & Et)].
  - rewrite E. discriminate.
  - rewrite Et, Er. intros Hret. apply finish_inr in Hret.
    cbn [requests]. rewrite requests_app, requests_closing, app_nil_r.
    apply (loop_valid_returned h Srv serve args items sids s Hv Hret).
Qed.

Lemma main_valid_prefix (s : Srv) :
  exists k,
    k <= length sids /\
    requests (trace_of (main h serve args s)) =
      firstn k (map (clear_request h args) sids).
Proof.
  destruct (main_valid s) as [E|(items & Hv & Er & Et)].
  - rewrite E. exists 0. split; [lia | reflexivity].
  - rewrite Et.
    cbn [requests]. rewrite requests_app, requests_closing, app_nil_r.
    apply loop_valid_prefix. exact Hv.
Qed.

Lemma main_valid_console (s : Srv) :
  result_of (main h serve args s) = inr tt ->
  console (trace_of (main h serve args s)) =
    header_line (length sids) :: (map (cleared_line h) sids ++ ["Done!"])%list.
Proof.
  destruct (main_valid s) as [E|(items & Hv & Er & Et)].
  - rewrite E. discriminate.
  - rewrite Et, Er. intros Hret. rewrite Hret.
    apply finish_inr in Hret.
    cbn [console closing_lines]. rewrite console_app. cbn [console].
    destruct (loop_valid_returned h Srv serve args items sids s Hv Hret)
      as (_ & _ & Hc).
    rewrite Hc. reflexivity.
Qed.

End ValidDataset.

(** ** Two runs over the same files *)

Section TwoRuns.

Variable h : host.
Variable args : namespace.
Variables Srv1 Srv2 : Type.
Variable serve1 : Srv1 -> request -> reply * Srv1.
Variable serve2 : Srv2 -> request -> reply * Srv2.

(** When every reply of both runs is a success, the two runs issue the
    same requests, print the same lines and end the same way. *)
Lemma main_success_determined (s1 : Srv1) (s2 : Srv2) :
  forallb reply_ok (replies (trace_of (main h serve1 args s1))) = true ->
  forallb reply_ok (replies (trace_of (main h serve2 args s2))) = true ->
  requests (trace_of (main h serve1 args s1)) =
    requests (trace_of (main h serve2 args s2)) /\
  console (trace_of (main h serve1 args s1)) =
    console (trace_of (main h serve2 args s2)) /\
  result_of (main h serve1 args s1) = result_of (main h serve2 args s2).
Proof.
  destruct (files h (data args)) as [| | |v] eqn:F.
  - rewrite !main_absent by exact F.
    destruct (stdout_encodes h _); repeat split.
  - rewrite !main_unreadable by exact F. repeat split.
  - rewrite !main_malformed by exact F. repeat split.
  - destruct (py_len v) as [e|n] eqn:L.
    + rewrite !(main_no_len _ _ _ _ v e) by assumption. repeat split.
    + destruct (py_iter_of_len _ _ L) as (items & I & _).
      destruct (stdout_encodes h (header_line (length items))) eqn:Hd.
      * rewrite !(main_document _ _ _ _ v items) by assumption.
        pose proof (loop_success_determined h args Srv1 Srv2 serve1 serve2
                      items s1 s2) as D.
        cbv zeta in D. unfold trace_of, result_of in *.
        cbn [fst snd replies requests console].
        rewrite !replies_app, !requests_app, !console_app.
        rewrite !replies_closing, !requests_closing, !app_nil_r.
        intros H1 H2. destruct (D H1 H2) as (Hr & Hq & Hc).
        rewrite Hr, Hq, Hc. repeat split.
      * rewrite !(main_header_refused _ _ _ _ v items) by assumption.
        repeat split.
Qed.

End TwoRuns.

(** ** The identifier each request carries *)

Section Derived.

Variable h : host.
Variable Srv : Type.
Variable serve : Srv -> request -> reply * Srv.
Variable args : namespace.

Lemma prepare_request (x : json) (req : request) (line : string) :
  prepare h args x = inr (req, line) -> request_of_item h args x req.
Proof.
  unfold prepare, request_of_item.
  destruct (py_getitem x "sample_id") as [e|sid]; [discriminate|].
  destruct (call_sample_id_to_uuid h sid) as [e|agent_id] eqn:U; [discriminate|].
  intros [= <- _]. exists sid, agent_id.
  split; [reflexivity|]. split; [exact U|].
  split; [|repeat split].
  intros text ->. cbn in U. congruence.
Qed.

(** The requests of the loop are those of its first items, one each, in
    order. *)
Lemma loop_requests_derived (items : list json) (s : Srv) :
  exists k,
    Forall2 (request_of_item h args) (firstn k items)
      (requests (trace_of (for_each items (clear_sample h serve args) s))).
Proof.
  revert s. induction items as [|x xs IH]; intros s.
  - exists 0. constructor.
  - rewrite loop_cons.
    destruct (prepare h args x) as [e|[req line]] eqn:P.
    + exists 0. constructor.
    + apply prepare_request in P.
      destruct (after_reply _ _ _) as [e|[]].
      * exists 1. cbn. constructor; [exact P | destruct xs; constructor].
      * destruct (IH (snd (serve s req))) as (k & Hk).
        exists (S k). cbn. constructor; assumption.
Qed.

Lemma main_requests_derived (s : Srv) :
  exists k,
    Forall2 (request_of_item h args) (firstn k (dataset_items h args))
      (requests (trace_of (main h serve args s))).
Proof.
  destruct (main_cases h Srv serve args s)
    as [(_ & _ & Et)|[(_ & Et)|(v & items & F & I & _ & _ & Et)]].
  - exists 0. rewrite Et. constructor.
  - exists 0. rewrite Et. constructor.
  - rewrite Et. cbn [requests].
    rewrite requests_app, requests_closing, app_nil_r.
    unfold dataset_items. rewrite F, I. apply loop_requests_derived.
Qed.

End Derived.

(** ** The two scenarios on the two-record dataset *)

(** The server accepts both requests. *)
Example run_two_records_accepted :
  main (demo_host (Document two_records)) (always 200) demo_args tt =
  (inr tt,
   [ Printed ("Clearing chunks for 2 LOCOMO agents" ++ ellipsis);
     ClientOpened;
     Sent (clear_request (demo_host (Document two_records)) demo_args "A")
          (Response 200);
     Printed "  A (u1): cleared";
     Sent (clear_request (demo_host (Document two_records)) demo_args "B")
          (Response 200);
     Printed "  B (u2): cleared";
     ClientClosed;
     Printed "Done!" ],
   tt).
Proof. reflexivity. Qed.

(** The server answers the second request with 500. *)
Example run_two_records_second_refused :
  main (demo_host (Document two_records)) (nth_fails 1 (Response 500))
       demo_args 0 =
  (inl (HTTPStatusError 500),
   [ Printed ("Clearing chunks for 2 LOCOMO agents" ++ ellipsis);
     ClientOpened;
     Sent (clear_request (demo_host (Document two_records)) demo_args "A")
          (Response 200);
     Printed "  A (u1): cleared";
     Sent (clear_request (demo_host (Document two_records)) demo_args "B")
          (Response 500);
     ClientClosed ],
   2).
Proof. reflexivity. Qed.

(** A standard output that is ASCII cannot take the ellipsis of the header:
    [UnicodeEncodeError] leaves [main] before anything else happens. *)
Example run_two_records_ascii_stdout :
  main (ascii_host (Document two_records)) (always 200) demo_args tt =
  (inl UnicodeEncodeError, [], tt).
Proof. reflexivity. Qed.

(** ** The properties of the runner *)

(** C1, as amended: over a valid dataset, on a run that completes (no
    exception leaves [main]: every request got a 2xx response and every
    line could be printed), the runner issues exactly one clearing request
    per record, and the [agent_id] of each request is [sample_id_to_uuid]
    of that record's [sample_id]. *)
Theorem C1_one_request_per_record
  (h : host) (Srv : Type) (serve : Srv -> request -> reply * Srv)
  (args : namespace) (s : Srv) (v : json) (sids : list string) :
  files h (data args) = Document v ->
  sample_ids v = Some sids ->
  result_of (main h serve args s) = inr tt ->
  length (requests (trace_of (main h serve args s))) = length sids /\
  map req_json (requests (trace_of (main h serve args s))) =
    map (fun sid => JObject [("agent_id", JString (sample_id_to_uuid h sid))])
        sids.
Proof.
  intros F V Hret.
  rewrite (main_valid_requests h Srv serve args v sids F V s Hret).
  rewrite length_map, map_map. split; reflexivity.
Qed.

(** The valid two-record dataset, with a server that accepts everything. *)
Lemma C1_one_request_per_record_witness :
  let run := main (demo_host (Document two_records)) (always 200) demo_args tt in
  files (demo_host (Document two_records)) (data demo_args) = Document two_records /\
  sample_ids two_records = Some ["A"; "B"] /\
  result_of run = inr tt /\
  length (requests (trace_of run)) = 2 /\
  map req_json (requests (trace_of run)) =
    [JObject [("agent_id", JString "u1")]; JObject [("agent_id", JString "u2")]].
Proof.
  cbv zeta.
  split; [reflexivity|]. split; [reflexivity|]. split; [reflexivity|].
  apply (C1_one_request_per_record
           (demo_host (Document two_records)) unit (always 200) demo_args tt
           two_records ["A"; "B"]); reflexivity.
Defined.

(** C1 as stated fails when the server refuses a request: over the valid
    two-record dataset, with a server that answers 500, a single request is
    issued for the two records. *)
Lemma C1_counterexample :
  let run := main (demo_host (Document two_records)) (always 500) demo_args tt in
  files (demo_host (Document two_records)) (data demo_args) = Document two_records /\
  sample_ids two_records = Some ["A"; "B"] /\
  requests (trace_of run) =
    [clear_request (demo_host (Document two_records)) demo_args "A"] /\
  length (requests (trace_of run)) <> length ["A"; "B"].
Proof.
  cbv zeta. split; [reflexivity|]. split; [reflexivity|].
  split; [reflexivity|]. cbn. discriminate.
Qed.

(** C2: over a valid dataset the requests issued are those of the first
    [k] records in file order, for some [k]: no request comes before that
    of an earlier record, and none is reordered. *)
Theorem C2_requests_in_file_order
  (h : host) (Srv : Type) (serve : Srv -> request -> reply * Srv)
  (args : namespace) (s : Srv) (v : json) (sids : list string) :
  files h (data args) = Document v ->
  sample_ids v = Some sids ->
  exists k,
    k <= length sids /\
    requests (trace_of (main h serve args s)) =
      firstn k (map (clear_request h args) sids).
Proof.
  intros F V. exact (main_valid_prefix h Srv serve args v sids F V s).
Qed.

(** The two-record dataset, with a server that refuses the second request. *)
Lemma C2_requests_in_file_order_witness :
  let hst := demo_host (Document two_records) in
  files hst (data demo_args) = Document two_records /\
  sample_ids two_records = Some ["A"; "B"] /\
  exists k,
    k <= 2 /\
    requests (trace_of (main hst (nth_fails 1 (Response 500)) demo_args 0)) =
      firstn k (map (clear_request hst demo_args) ["A"; "B"]).
Proof.
  cbv zeta. split; [reflexivity|]. split; [reflexivity|].
  apply (C2_requests_in_file_order
           (demo_host (Document two_records)) nat (nth_fails 1 (Response 500))
           demo_args 0 two_records ["A"; "B"]); reflexivity.
Defined.

(** C3: a response whose status is not 2xx ends the run at once.  After it
    the client is closed and nothing else happens: no further request, no
    further line, no ["Done!"]; the run ends in the status error. *)
Theorem C3_fail_fast
  (h : host) (Srv : Type) (serve : Srv -> request -> reply * Srv)
  (args : namespace) (s : Srv) (req : request) (code : Z) :
  In (Sent req (Response code)) (trace_of (main h serve args s)) ->
  ~ (200 <= code <= 299)%Z ->
  (exists pre,
     trace_of (main h serve args s) =
       (pre ++ [Sent req (Response code); ClientClosed])%list) /\
  result_of (main h serve args s) = inl (HTTPStatusError code) /\
  ~ In "Done!" (console (trace_of (main h serve args s))).
Proof.
  intros Hin Hcode.
  assert (Hbad : is_success code = false).
  { destruct (is_success code) eqn:E; [|reflexivity].
    apply is_success_range in E. contradiction. }
  destruct (main_failure_last h Srv serve args s req (Response code) Hin Hbad)
    as (pre & Ht & Hr & Hd).
  cbn in Hr. rewrite Hbad in Hr.
  split; [exists pre; exact Ht|]. split; assumption.
Qed.

(** The two-record dataset, with a server that answers the second request
    with 500. *)
Lemma C3_fail_fast_witness :
  let hst := demo_host (Document two_records) in
  let run := main hst (nth_fails 1 (Response 500)) demo_args 0 in
  In (Sent (clear_request hst demo_args "B") (Response 500)) (trace_of run) /\
  ~ (200 <= 500 <= 299)%Z /\
  (exists pre,
     trace_of run =
       (pre ++ [Sent (clear_request hst demo_args "B") (Response 500);
                ClientClosed])%list) /\
  result_of run = inl (HTTPStatusError 500) /\
  ~ In "Done!" (console (trace_of run)).
Proof.
  cbv zeta.
  assert (Hin : In (Sent (clear_request (demo_host (Document two_records))
                            demo_args "B") (Response 500))
                   (trace_of (main (demo_host (Document two_records))
                                (nth_fails 1 (Response 500)) demo_args 0))).
  { do 4 right. left. reflexivity. }
  assert (Hcode : ~ (200 <= 500 <= 299)%Z) by lia.
  split; [exact Hin|]. split; [exact Hcode|].
  exact (C3_fail_fast (demo_host (Document two_records)) nat
           (nth_fails 1 (Response 500)) demo_args 0 _ 500 Hin Hcode).
Defined.




(** C5, as amended: a run over a valid dataset that returns prints the
    header line with the number of records, then one line per record in
    file order, then a single final ["Done!"]. *)
Theorem C5_console_of_successful_run
  (h : host) (Srv : Type) (serve : Srv -> request -> reply * Srv)
  (args : namespace) (s : Srv) (v : json) (sids : list string) :
  files h (data args) = Document v ->
  sample_ids v = Some sids ->
  result_of (main h serve args s) = inr tt ->
  console (trace_of (main h serve args s)) =
    ("Clearing chunks for " ++ dec (length sids) ++ " LOCOMO agents" ++ ellipsis)
    :: (map (fun sid =>
               ("  " ++ sid ++ " (" ++ sample_id_to_uuid h sid ++ "): cleared")
                 %string)
            sids
        ++ ["Done!"])%list.
Proof.
  intros F V Hret.
  exact (main_valid_console h Srv serve args v sids F V s Hret).
Qed.

(** The two-record scenario: the header, [A]/[u1], [B]/[u2], ["Done!"]. *)
Lemma C5_console_of_successful_run_witness :
  let hst := demo_host (Document two_records) in
  let run := main hst (always 200) demo_args tt in
  files hst (data demo_args) = Document two_records /\
  sample_ids two_records = Some ["A"; "B"] /\
  result_of run = inr tt /\
  console (trace_of run) =
    [ "Clearing chunks for 2 LOCOMO agents" ++ ellipsis;
      "  A (u1): cleared"; "  B (u2): cleared"; "Done!" ].
Proof.
  cbv zeta. split; [reflexivity|]. split; [reflexivity|]. split; [reflexivity|].
  apply (C5_console_of_successful_run
           (demo_host (Document two_records)) unit (always 200) demo_args tt
           two_records ["A"; "B"]); reflexivity.
Defined.

(** C5 as stated leaves the header out: on the successful run over the
    two-record dataset the console holds four lines, the first of which is
    neither a line of a record nor ["Done!"]. *)
Lemma C5_counterexample :
  let hst := demo_host (Document two_records) in
  let run := main hst (always 200) demo_args tt in
  sample_ids two_records = Some ["A"; "B"] /\
  result_of run = inr tt /\
  console (trace_of run) <>
    (map (cleared_line hst) ["A"; "B"] ++ ["Done!"])%list.
Proof.
  cbv zeta. split; [reflexivity|]. split; [reflexivity|].
  intros E. apply (f_equal (@length string)) in E. discriminate E.
Qed.

(** C6: the requests are, one each and in order, those of the first
    items of the dataset: each is a POST to the base URL followed by
    [/memory/clear-chunks] whose JSON body is an object with the single
    member [agent_id], the identifier [sample_id_to_uuid] gives for the
    [sample_id] of the item.  A 2xx response is not an error: the run goes
    on to print the line of the record (and ends there only if that line
    cannot be encoded).  Any other status ends the run in the status
    error. *)
Theorem C6_wire_protocol
  (h : host) (Srv : Type) (serve : Srv -> request -> reply * Srv)
  (args : namespace) (s : Srv) :
  (exists k,
     Forall2
       (fun item r =>
          exists sid agent_id,
            py_getitem item "sample_id" = inr sid /\
            call_sample_id_to_uuid h sid = inr agent_id /\
            (forall text,
               sid = JString text -> agent_id = sample_id_to_uuid h text) /\
            req_method r = POST /\
            req_url r = base_url args ++ "/memory/clear-chunks" /\
            req_json r = JObject [("agent_id", JString agent_id)])
       (firstn k (dataset_items h args))
       (requests (trace_of (main h serve args s)))) /\
  forall req code,
    In (Sent req (Response code)) (trace_of (main h serve args s)) ->
    ((200 <= code <= 299)%Z ->
     (exists pre line post,
        trace_of (main h serve args s) =
          (pre ++ Sent req (Response code) :: Printed line :: post)%list) \/
     (result_of (main h serve args s) = inl UnicodeEncodeError /\
      exists pre,
        trace_of (main h serve args s) =
          (pre ++ [Sent req (Response code); ClientClosed])%list)) /\
    (~ (200 <= code <= 299)%Z ->
     result_of (main h serve args s) = inl (HTTPStatusError code)).
Proof.
  split.
  - exact (main_requests_derived h Srv serve args s).
  - intros req code Hin. split; intros Hcode.
    + apply is_success_range in Hcode.
      destruct (main_success_next h Srv serve args s req (Response code)
                  Hin Hcode) as [Hn|(pre & Ht & Hr)].
      * left. exact Hn.
      * right. split; [exact Hr | exists pre; exact Ht].
    + assert (Hbad : is_success code = false).
      { destruct (is_success code) eqn:E; [|reflexivity].
        apply is_success_range in E. contradiction. }
      destruct (main_failure_last h Srv serve args s req (Response code)
                  Hin Hbad) as (_ & _ & Hr & _).
      cbn in Hr. rewrite Hbad in Hr. exact Hr.
Qed.

(** The two-record dataset with a server that answers 200, then 500: the
    first response is a success and its line is printed, the second is
    fatal. *)
Lemma C6_wire_protocol_witness :
  let hst := demo_host (Document two_records) in
  let run := main hst (nth_fails 1 (Response 500)) demo_args 0 in
  ((exists pre line post,
      trace_of run =
        (pre ++ Sent (clear_request hst demo_args "A") (Response 200)
             :: Printed line :: post)%list) \/
   (result_of run = inl UnicodeEncodeError /\
    exists pre,
      trace_of run =
        (pre ++ [Sent (clear_request hst demo_args "A") (Response 200);
                 ClientClosed])%list)) /\
  result_of run = inl (HTTPStatusError 500).
Proof.
  cbv zeta.
  pose proof (C6_wire_protocol (demo_host (Document two_records)) nat
                (nth_fails 1 (Response 500)) demo_args 0) as [_ W].
  split.
  - apply (W (clear_request (demo_host (Document two_records)) demo_args "A")
             200%Z).
    + do 2 right. left. reflexivity.
    + lia.
  - apply (W (clear_request (demo_host (Document two_records)) demo_args "B")
             500%Z).
    + do 4 right. left. reflexivity.
    + lia.
Defined.

(** C7: a dataset file that does not decode, or a list one of whose records
    is an object without [sample_id], ends the run in an exception that
    leaves [main]: the exit status is not zero, ["Done!"] is not printed,
    and no request is issued for the record without [sample_id] or for a
    later one. *)
Theorem C7_format_errors_are_fatal
  (h : host) (Srv : Type) (serve : Srv -> request -> reply * Srv)
  (args : namespace) (s : Srv) :
  (files h (data args) = Malformed ->
   result_of (main h serve args s) = inl JSONDecodeError /\
   exit_status (result_of (main h serve args s)) = 1%Z) /\
  (forall pre members post,
     files h (data args) = Document (JList (pre ++ JObject members :: post)) ->
     assoc "sample_id" members = None ->
     (exists e, result_of (main h serve args s) = inl e) /\
     exit_status (result_of (main h serve args s)) = 1%Z /\
     length (requests (trace_of (main h serve args s))) <= length pre /\
     ~ In "Done!" (console (trace_of (main h serve args s)))).
Proof.
  split.
  - intros F. rewrite (main_malformed h Srv serve args s F). split; reflexivity.
  - intros pre members post F Hmiss.
    destruct (stdout_encodes h
                (header_line (length (pre ++ JObject members :: post))))
      eqn:Hd.
    + rewrite (main_document h Srv serve args _
                 (pre ++ JObject members :: post) s F eq_refl Hd).
      destruct (loop_raises h Srv serve args pre post (JObject members) _ s
                  (prepare_missing h args members Hmiss)) as (e & Hr & Hn).
      pose proof (loop_never_done h Srv serve args
                    (pre ++ JObject members :: post) s) as Hnd.
      unfold result_of, trace_of in *. cbn [fst snd]. rewrite Hr.
      cbn [finish].
      split; [exists e; reflexivity|]. split; [reflexivity|].
      cbn [requests console closing_lines].
      rewrite requests_app, console_app. cbn [requests console].
      rewrite !app_nil_r. split; [exact Hn|].
      intros [[=]|Hd']. exact (Hnd Hd').
    + rewrite (main_header_refused h Srv serve args _
                 (pre ++ JObject members :: post) s F eq_refl Hd).
      split; [eexists; reflexivity|]. split; [reflexivity|].
      split; [cbn; lia | intros []].
Qed.

(** A file that does not decode, and the dataset [[A; {}; B]] with a server
    that accepts everything: the second record has no [sample_id]. *)
Lemma C7_format_errors_are_fatal_witness :
  let bad := JList [record_A; JObject []; record_B] in
  result_of (main (demo_host Malformed) (always 200) demo_args tt) =
    inl JSONDecodeError /\
  (exists e, result_of (main (demo_host (Document bad)) (always 200)
                          demo_args tt) = inl e) /\
  length (requests (trace_of (main (demo_host (Document bad)) (always 200)
                                demo_args tt))) <= 1.
Proof.
  cbv zeta. split.
  - apply (C7_format_errors_are_fatal (demo_host Malformed) unit (always 200)
             demo_args tt). reflexivity.
  - pose proof (proj2 (C7_format_errors_are_fatal
                  (demo_host (Document (JList [record_A; JObject []; record_B])))
                  unit (always 200) demo_args tt)
                  [record_A] [] [record_B] eq_refl eq_refl) as W.
    split; [exact (proj1 W) | exact (proj1 (proj2 (proj2 W)))].
Defined.

(** C8: every request carries the timeout of 30 seconds, and a request
    that times out ends the run: the exception leaves [main], and after the
    request the client is closed and nothing else happens, so the request
    is not tried again. *)
Theorem C8_timeout
  (h : host) (Srv : Type) (serve : Srv -> request -> reply * Srv)
  (args : namespace) (s : Srv) :
  Forall (fun r => req_timeout r = 30%Z)
         (requests (trace_of (main h serve args s))) /\
  forall req,
    In (Sent req (Failed TimeoutException)) (trace_of (main h serve args s)) ->
    result_of (main h serve args s) = inl (TransportError TimeoutException) /\
    exit_status (result_of (main h serve args s)) = 1%Z /\
    exists pre,
      trace_of (main h serve args s) =
        (pre ++ [Sent req (Failed TimeoutException); ClientClosed])%list.
Proof.
  split.
  - eapply Forall_impl; [|apply main_requests_shape].
    intros r (_ & _ & _ & Ht). exact Ht.
  - intros req Hin.
    destruct (main_failure_last h Srv serve args s req
                (Failed TimeoutException) Hin eq_refl) as (pre & Ht & Hr & _).
    rewrite Hr. split; [reflexivity|]. split; [reflexivity|].
    exists pre. exact Ht.
Qed.

(** The two-record dataset with a server that never answers in time: one
    request, for the first record, and the run is over. *)
Lemma C8_timeout_witness :
  let hst := demo_host (Document two_records) in
  let run := main hst times_out demo_args tt in
  result_of run = inl (TransportError TimeoutException) /\
  exit_status (result_of run) = 1%Z /\
  exists pre,
    trace_of run =
      (pre ++ [Sent (clear_request hst demo_args "A") (Failed TimeoutException);
               ClientClosed])%list.
Proof.
  cbv zeta.
  apply (proj2 (C8_timeout (demo_host (Document two_records)) unit times_out
                  demo_args tt)).
  do 2 right. left. reflexivity.
Defined.

(** C9: two runs over the same files with the same arguments, in both of
    which every request gets a 2xx response, issue the same sequence of
    requests (so the same agent identifiers), print the same lines, and end
    the same way, whatever the two servers are. *)
Theorem C9_rerun_is_identical
  (h : host) (args : namespace)
  (Srv1 Srv2 : Type)
  (serve1 : Srv1 -> request -> reply * Srv1)
  (serve2 : Srv2 -> request -> reply * Srv2)
  (s1 : Srv1) (s2 : Srv2) :
  forallb reply_ok (replies (trace_of (main h serve1 args s1))) = true ->
  forallb reply_ok (replies (trace_of (main h serve2 args s2))) = true ->
  requests (trace_of (main h serve1 args s1)) =
    requests (trace_of (main h serve2 args s2)) /\
  console (trace_of (main h serve1 args s1)) =
    console (trace_of (main h serve2 args s2)) /\
  result_of (main h serve1 args s1) = result_of (main h serve2 args s2).
Proof.
  exact (main_success_determined h args Srv1 Srv2 serve1 serve2 s1 s2).
Qed.

(** A first run against a server that answers 200 and a second against one
    that answers 204 and counts the requests. *)
Lemma C9_rerun_is_identical_witness :
  let hst := demo_host (Document two_records) in
  let run1 := main hst (always 200) demo_args tt in
  let run2 := main hst (nth_fails 5 (Response 204)) demo_args 5 in
  forallb reply_ok (replies (trace_of run1)) = true /\
  forallb reply_ok (replies (trace_of run2)) = true /\
  requests (trace_of run1) = requests (trace_of run2) /\
  console (trace_of run1) = console (trace_of run2) /\
  result_of run1 = result_of run2.
Proof.
  cbv zeta. split; [reflexivity|]. split; [reflexivity|].
  apply (C9_rerun_is_identical (demo_host (Document two_records)) demo_args
           unit nat (always 200) (nth_fails 5 (Response 204)) tt 5);
    reflexivity.
Defined.

(** C10: when the file does not decode, nothing has happened by the time
    the exception leaves [main]: no request was issued and the HTTP client
    was never created. *)
Theorem C10_parse_failure_contacts_nobody
  (h : host) (Srv : Type) (serve : Srv -> request -> reply * Srv)
  (args : namespace) (s : Srv) :
  files h (data args) = Malformed ->
  requests (trace_of (main h serve args s)) = [] /\
  ~ In ClientOpened (trace_of (main h serve args s)) /\
  result_of (main h serve args s) = inl JSONDecodeError /\
  snd (main h serve args s) = s.
Proof.
  intros F. rewrite (main_malformed h Srv serve args s F).
  repeat split. intros [].
Qed.

Lemma C10_parse_failure_contacts_nobody_witness :
  let run := main (demo_host Malformed) (nth_fails 0 (Response 500)) demo_args 0 in
  files (demo_host Malformed) (data demo_args) = Malformed /\
  requests (trace_of run) = [] /\
  ~ In ClientOpened (trace_of run) /\
  result_of run = inl JSONDecodeError /\
  snd run = 0.
Proof.
  cbv zeta. split; [reflexivity|].
  apply (C10_parse_failure_contacts_nobody (demo_host Malformed) nat
           (nth_fails 0 (Response 500)) demo_args 0).
  reflexivity.
Defined.


(** ** More about the loop *)

Section LoopFacts.

Variable h : host.
Variable Srv : Type.
Variable serve : Srv -> request -> reply * Srv.
Variable args : namespace.

Local Abbreviation loop items s := (for_each items (clear_sample h serve args) s).

(** The loop neither opens nor closes the client. *)
Lemma loop_events (items : list json) (s : Srv) :
  forallb is_loop_event (trace_of (loop items s)) = true.
Proof.
  revert s. induction items as [|x xs IH]; intros s; [reflexivity|].
  rewrite loop_cons.
  destruct (prepare h args x) as [e|[req line]]; [reflexivity|].
  destruct (after_reply _ _ _) as [e|[]]; [reflexivity|].
  cbn. apply IH.
Qed.

(** Every reply but the last is a success, and so is the last when the
    loop is not left by an exception. *)
Lemma loop_replies (items : list json) (s : Srv) :
  forallb reply_ok (removelast (replies (trace_of (loop items s)))) = true /\
  (result_of (loop items s) = inr tt ->
   forallb reply_ok (replies (trace_of (loop items s))) = true).
Proof.
  revert s. induction items as [|x xs IH]; intros s; [split; reflexivity|].
  rewrite loop_cons.
  destruct (prepare h args x) as [e|[req line]]; [split; [reflexivity|discriminate]|].
  destruct (after_reply _ _ _) as [e|[]] eqn:St;
    [split; [reflexivity|discriminate]|].
  apply after_reply_inr in St. destruct St as (St & _).
  destruct (IH (snd (serve s req))) as (Hl & Hr).
  unfold trace_of, result_of in *. cbn [fst snd replies]. split.
  - destruct (replies (snd (fst (loop xs (snd (serve s req)))))) as [|b bs];
      [reflexivity|].
    change (removelast (?a :: b :: bs)) with (a :: removelast (b :: bs)).
    cbn [forallb]. rewrite St, Hl. reflexivity.
  - intros Hret. cbn [forallb]. rewrite St, (Hr Hret). reflexivity.
Qed.

(** No more requests than items; a line for every accepted request but
    possibly the last; at most one request that was not accepted. *)
Lemma loop_counts (items : list json) (s : Srv) :
  length (requests (trace_of (loop items s))) <= length items /\
  length (requests (trace_of (loop items s))) <=
    S (accepted (trace_of (loop items s))) /\
  length (console (trace_of (loop items s))) <=
    accepted (trace_of (loop items s)) /\
  accepted (trace_of (loop items s)) <=
    S (length (console (trace_of (loop items s)))) /\
  (result_of (loop items s) = inr tt ->
   accepted (trace_of (loop items s)) =
     length (console (trace_of (loop items s)))).
Proof.
  unfold accepted.
  revert s. induction items as [|x xs IH]; intros s.
  - cbn. repeat split; lia.
  - rewrite loop_cons.
    destruct (prepare h args x) as [e|[req line]];
      [cbn; repeat split; try lia; discriminate|].
    destruct (after_reply _ _ _) as [e|[]] eqn:St.
    + cbn. destruct (reply_ok (fst (serve s req)));
        cbn; repeat split; try lia; discriminate.
    + apply after_reply_inr in St. destruct St as (St & _).
      destruct (IH (snd (serve s req))) as (Hn & Hm & Hc & Hd & Hr).
      unfold trace_of, result_of in *.
      cbn [fst snd console requests replies filter].
      rewrite St. cbn [length]. repeat split; try lia.
      intros Hret. rewrite (Hr Hret). reflexivity.
Qed.



(** Over well-formed records: the lines printed are those of the first
    records, as many as there are lines; the requests are those of the
    records reached; and a loop that comes to its end has printed the line
    of every record. *)
Lemma loop_valid_progress (items : list json) (sids : list string) (s : Srv) :
  map sample_id_of items = map Some sids ->
  console (trace_of (loop items s)) =
    map (cleared_line h)
        (firstn (length (console (trace_of (loop items s)))) sids) /\
  requests (trace_of (loop items s)) =
    firstn (length (replies (trace_of (loop items s))))
           (map (clear_request h args) sids) /\
  length (console (trace_of (loop items s))) <= length sids /\
  accepted (trace_of (loop items s)) <= length sids /\
  (result_of (loop items s) = inr tt ->
   length (console (trace_of (loop items s))) = length sids).
Proof.
  unfold accepted.
  revert sids s. induction items as [|x xs IH]; intros [|sid sids] s Hv;
    try discriminate.
  - cbn. repeat split; lia.
  - cbn in Hv. injection Hv as Hx Hxs.
    rewrite loop_cons, (prepare_valid _ _ _ _ Hx).
    destruct (after_reply _ _ _) as [e|[]] eqn:St.
    + cbn. destruct (reply_ok _); cbn; repeat split; try lia; discriminate.
    + apply after_reply_inr in St. destruct St as (St & _).
      destruct (IH sids (snd (serve s (clear_request h args sid))) Hxs)
        as (Hc & Hq & Hk & Ha & Hr).
      unfold trace_of, result_of in *.
      cbn [fst snd console requests replies filter].
      rewrite St. cbn [length firstn map]. rewrite <- Hc, <- Hq.
      repeat split; try lia.
      intros Hret. rewrite (Hr Hret). reflexivity.
Qed.

End LoopFacts.

Lemma sent_then_printed_closed (u w : list event) :
  sent_then_printed (u ++ ClientClosed :: w) =
  (sent_then_printed u ++ sent_then_printed w)%list.
Proof.
  induction u as [|e u IH]; [reflexivity|].
  destruct e as [l| |r a|]; cbn [app sent_then_printed]; try exact IH.
  destruct u as [|[l| |r' a'|] u]; cbn [app] in *;
    rewrite ?IH; reflexivity.
Qed.

Lemma sent_then_printed_closing (r : exn + unit) :
  sent_then_printed (closing_lines r) = [].
Proof. destruct r as [e|[]]; reflexivity. Qed.

Lemma console_closing (r : exn + unit) :
  console (closing_lines r) =
  match r with inr _ => ["Done!"] | inl _ => [] end.
Proof. destruct r as [e|[]]; reflexivity. Qed.

(** ** More about the whole run *)

Section RunFacts.

Variable h : host.
Variable Srv : Type.
Variable serve : Srv -> request -> reply * Srv.
Variable args : namespace.

Local Abbreviation loop items s := (for_each items (clear_sample h serve args) s).
Local Abbreviation run s := (main h serve args s).

(** What a run with a loop issues, gets back and prints. *)
Lemma main_loop_projections (items : list json) (s : Srv) :
  trace_of (run s) =
    Printed (header_line (length items)) :: ClientOpened ::
      (trace_of (loop items s) ++
       ClientClosed ::
       closing_lines (finish h (result_of (loop items s))))%list ->
  requests (trace_of (run s)) = requests (trace_of (loop items s)) /\
  replies (trace_of (run s)) = replies (trace_of (loop items s)) /\
  accepted (trace_of (run s)) = accepted (trace_of (loop items s)) /\
  console (trace_of (run s)) =
    header_line (length items) ::
      (console (trace_of (loop items s)) ++
       console (closing_lines (finish h (result_of (loop items s)))))%list /\
  sent_then_printed (trace_of (run s)) =
    sent_then_printed (trace_of (loop items s)).
Proof.
  intros Et. unfold accepted. rewrite Et.
  cbn [requests replies console sent_then_printed].
  rewrite requests_app, replies_app, console_app, sent_then_printed_closed.
  rewrite requests_closing, replies_closing, sent_then_printed_closing.
  cbn [console]. rewrite !app_nil_r. repeat split.
Qed.

End RunFacts.

(** ** Further properties of the runner *)

(** X1: requests are issued only inside the client's context, and a client
    that was opened is closed again, also when the run ends in an
    exception.  Either the run only printed, or its trace is the header
    line, the opening of the client, requests and lines, the closing of the
    client, and then ["Done!"] exactly when [main] returns. *)
Theorem X1_requests_inside_client
  (h : host) (Srv : Type) (serve : Srv -> request -> reply * Srv)
  (args : namespace) (s : Srv) :
  (forall e, In e (trace_of (main h serve args s)) -> exists l, e = Printed l) \/
  exists hdr mid tail,
    trace_of (main h serve args s) =
      Printed hdr :: ClientOpened :: (mid ++ ClientClosed :: tail)%list /\
    forallb is_loop_event mid = true /\
    ((tail = [Printed "Done!"] /\ result_of (main h serve args s) = inr tt) \/
     (tail = [] /\ exists e, result_of (main h serve args s) = inl e)).
Proof.
  destruct (main_cases h Srv serve args s)
    as [(_ & _ & Et)|[(_ & Et)|(v & items & _ & _ & _ & Er & Et)]].
  - left. rewrite Et. intros e [<-|[]]. eexists. reflexivity.
  - left. rewrite Et. intros e [].
  - right. exists (header_line (length items)),
      (trace_of (for_each items (clear_sample h serve args) s)),
      (closing_lines
         (finish h (result_of (for_each items (clear_sample h serve args) s)))).
    split; [exact Et|]. split; [apply loop_events|].
    rewrite Er.
    destruct (finish h (result_of (for_each items (clear_sample h serve args) s)))
      as [e|[]]; [right|left]; split; try reflexivity.
    exists e. reflexivity.
Qed.

(** X2: the server is contacted only when the dataset decodes to a list
    whose first element is an object with a [sample_id] member. *)
Theorem X2_contact_needs_first_record
  (h : host) (Srv : Type) (serve : Srv -> request -> reply * Srv)
  (args : namespace) (s : Srv) :
  requests (trace_of (main h serve args s)) <> [] ->
  exists members rest sid,
    files h (data args) = Document (JList (JObject members :: rest)) /\
    assoc "sample_id" members = Some sid.
Proof.
  intros Hreq.
  destruct (main_cases h Srv serve args s)
    as [(_ & _ & Et)|[(_ & Et)|(v & items & F & I & _ & _ & Et)]];
    try (rewrite Et in Hreq; contradiction Hreq; reflexivity).
  destruct (main_loop_projections h Srv serve args items s Et) as (Hq & _).
  rewrite Hq in Hreq. clear Et Hq.
  destruct items as [|x xs]; [contradiction Hreq; reflexivity|].
  rewrite loop_cons in Hreq.
  destruct (prepare h args x) as [e|[req line]] eqn:P;
    [contradiction Hreq; reflexivity|].
  clear Hreq. unfold prepare, py_getitem in P.
  destruct x as [| | | | | |members]; try discriminate.
  destruct (assoc "sample_id" members) as [sid|] eqn:A; [|discriminate].
  destruct v as [| | | |str|items|ms]; try discriminate; cbn in I.
  - destruct (py_chars str); discriminate.
  - injection I as ->. exists members, xs, sid. split; [exact F | exact A].
  - destruct ms; discriminate.
Qed.

(** The two-record dataset with a server that refuses everything: the one
    request that is issued is for the first record. *)
Lemma X2_contact_needs_first_record_witness :
  let hst := demo_host (Document two_records) in
  requests (trace_of (main hst (always 500) demo_args tt)) <> [] /\
  exists members rest sid,
    files hst (data demo_args) = Document (JList (JObject members :: rest)) /\
    assoc "sample_id" members = Some sid.
Proof.
  cbv zeta.
  assert (Hreq : requests (trace_of (main (demo_host (Document two_records))
                                       (always 500) demo_args tt)) <> [])
    by discriminate.
  split; [exact Hreq|].
  exact (X2_contact_needs_first_record (demo_host (Document two_records)) unit
           (always 500) demo_args tt Hreq).
Defined.

(** X3: in every run, each reply except possibly the last one is a
    success; and when [main] returns, every reply was a success. *)
Theorem X3_only_the_last_reply_can_fail
  (h : host) (Srv : Type) (serve : Srv -> request -> reply * Srv)
  (args : namespace) (s : Srv) :
  forallb reply_ok
    (removelast (replies (trace_of (main h serve args s)))) = true /\
  (result_of (main h serve args s) = inr tt ->
   forallb reply_ok (replies (trace_of (main h serve args s))) = true).
Proof.
  destruct (main_cases h Srv serve args s)
    as [(_ & _ & Et)|[(_ & Et)|(v & items & _ & _ & _ & Er & Et)]];
    try (rewrite Et; split; reflexivity).
  destruct (main_loop_projections h Srv serve args items s Et) as (_ & Hp & _).
  destruct (loop_replies h Srv serve args items s) as (Hl & Hr).
  rewrite Hp, Er. split; [exact Hl|].
  intros Hret. apply Hr. exact (finish_inr h _ Hret).
Qed.

(** A run that returns: both replies are successes. *)
Lemma X3_only_the_last_reply_can_fail_witness :
  let run := main (demo_host (Document two_records)) (always 204) demo_args tt in
  result_of run = inr tt /\
  forallb reply_ok (replies (trace_of run)) = true.
Proof.
  cbv zeta. split; [reflexivity|].
  apply (X3_only_the_last_reply_can_fail (demo_host (Document two_records))
           unit (always 204) demo_args tt).
  reflexivity.
Defined.

(** X4: how far a run over a valid dataset got can be read off the
    console.  The console is always a beginning of the full output (the
    header line, the line of each record in file order, ["Done!"]), and it
    is the full output exactly when [main] returns.  The requests issued
    are those of the records reached, and the line of every accepted
    request is on the console except possibly that of the last one. *)
Theorem X4_progress_over_valid_dataset
  (h : host) (Srv : Type) (serve : Srv -> request -> reply * Srv)
  (args : namespace) (s : Srv) (v : json) (sids : list string) :
  files h (data args) = Document v ->
  sample_ids v = Some sids ->
  let t := trace_of (main h serve args s) in
  let full :=
    header_line (length sids) ::
      (map (cleared_line h) sids ++ ["Done!"])%list in
  console t = firstn (length (console t)) full /\
  (result_of (main h serve args s) = inr tt <->
   length (console t) = length full) /\
  requests t =
    firstn (length (replies t)) (map (clear_request h args) sids) /\
  accepted t <= length sids /\
  accepted t <= length (console t).
Proof.
  intros F V. cbv zeta.
  destruct (main_valid h Srv serve args v sids F V s)
    as [E|(items & Hv & Er & Et)].
  - rewrite E. cbn. repeat split; try lia; discriminate.
  - assert (Hl : length items = length sids).
    { rewrite <- (length_map sample_id_of), Hv, length_map. reflexivity. }
    rewrite <- Hl in Et.
    destruct (main_loop_projections h Srv serve args items s Et)
      as (Hq & Hp & Ha & Hc & _).
    destruct (loop_valid_progress h Srv serve args items sids s Hv)
      as (Lc & Lq & Lk & La & Lr).
    destruct (loop_counts h Srv serve args items s) as (_ & _ & _ & Ld & _).
    rewrite Hq, Hp, Ha, Hc, Er, <- Lq, Hl, console_closing.
    set (lines := console (trace_of (for_each items (clear_sample h serve args) s)))
      in *.
    assert (Hfull : length (map (cleared_line h) sids ++ ["Done!"])%list
                    = S (length sids))
      by (rewrite length_app, length_map; cbn; lia).
    destruct (finish h (result_of (for_each items (clear_sample h serve args) s)))
      as [e|[]] eqn:Fin.
    + rewrite app_nil_r. cbn [length]. rewrite Hfull, firstn_cons.
      split; [|split; [|split; [reflexivity | split; [exact La | lia]]]].
      * apply f_equal. rewrite firstn_app, firstn_map, <- Lc.
        replace (length lines - length (map (cleared_line h) sids)) with 0
          by (rewrite length_map; lia).
        cbn [firstn]. rewrite app_nil_r. reflexivity.
      * split; [discriminate | lia].
    + apply finish_inr in Fin. specialize (Lr Fin).
      assert (Hlines : lines = map (cleared_line h) sids).
      { rewrite Lc, Lr, firstn_all. reflexivity. }
      rewrite Hlines. cbn [length]. rewrite !Hfull.
      split; [|split; [|split; [reflexivity | split; [exact La | lia]]]].
      * rewrite firstn_cons. apply f_equal. symmetry.
        rewrite <- Hfull. apply firstn_all.
      * split; intros _; reflexivity.
Qed.

(** The dataset [[A; B; A]] with a server that refuses the third request:
    the console stops after two lines, three requests were issued. *)
Lemma X4_progress_over_valid_dataset_witness :
  let hst := demo_host (Document (JList [record_A; record_B; record_A])) in
  let t := trace_of (main hst (nth_fails 2 (Response 503)) demo_args 0) in
  console t =
    firstn (length (console t))
      [ header_line 3; "  A (u1): cleared"; "  B (u2): cleared";
        "  A (u1): cleared"; "Done!" ] /\
  length (console t) = 3 /\
  requests t = map (clear_request hst demo_args) ["A"; "B"; "A"].
Proof.
  cbv zeta.
  pose proof (X4_progress_over_valid_dataset
                (demo_host (Document (JList [record_A; record_B; record_A])))
                nat (nth_fails 2 (Response 503)) demo_args 0
                (JList [record_A; record_B; record_A]) ["A"; "B"; "A"]
                eq_refl eq_refl) as (Hc & _ & Hq & _).
  split; [exact Hc|]. split; [reflexivity | exact Hq].
Defined.

(** X5: ["Done!"] is on the console exactly when [main] returned after
    going through the dataset file; it is then the last line, and appears
    once. *)
Theorem X5_done_means_success
  (h : host) (Srv : Type) (serve : Srv -> request -> reply * Srv)
  (args : namespace) (s : Srv) :
  (In "Done!" (console (trace_of (main h serve args s))) <->
   result_of (main h serve args s) = inr tt /\
   files h (data args) <> Absent) /\
  (In "Done!" (console (trace_of (main h serve args s))) ->
   exists lines,
     console (trace_of (main h serve args s)) = (lines ++ ["Done!"])%list /\
     ~ In "Done!" lines).
Proof.
  destruct (main_cases h Srv serve args s)
    as [(F & Er & Et)|[((e & Er) & Et)|(v & items & F & _ & _ & Er & Et)]].
  - rewrite Et, Er. cbn [console]. split.
    + split.
      * intros [[=]|[]].
      * intros (_ & Hne). contradiction.
    + intros [[=]|[]].
  - rewrite Et, Er. cbn [console]. split.
    + split; [intros [] | intros ([=] & _)].
    + intros [].
  - destruct (main_loop_projections h Srv serve args items s Et)
      as (_ & _ & _ & Hc & _).
    pose proof (loop_never_done h Srv serve args items s) as Hnd.
    rewrite Hc, Er, console_closing.
    destruct (finish h (result_of (for_each items (clear_sample h serve args) s)))
      as [e|[]].
    + rewrite app_nil_r. split.
      * split; [|intros ([=] & _)].
        intros [[=]|Hd]. contradiction.
      * intros [[=]|Hd]. contradiction.
    + split.
      * split.
        -- intros _. split; [reflexivity|]. rewrite F. discriminate.
        -- intros _. right. apply in_or_app. right. left. reflexivity.
      * intros _.
        exists (header_line (length items) ::
                console (trace_of (for_each items (clear_sample h serve args) s))).
        split; [reflexivity|].
        intros [[=]|Hd]. contradiction.
Qed.

(** The run that is refused at the second request has no ["Done!"]; the
    run that is accepted throughout has it. *)
Lemma X5_done_means_success_witness :
  let hst := demo_host (Document two_records) in
  ~ In "Done!" (console (trace_of
                  (main hst (nth_fails 1 (Response 500)) demo_args 0))) /\
  In "Done!" (console (trace_of (main hst (always 200) demo_args tt))).
Proof.
  cbv zeta. split.
  - intros Hd.
    apply (proj1 (X5_done_means_success (demo_host (Document two_records)) nat
                    (nth_fails 1 (Response 500)) demo_args 0)) in Hd.
    destruct Hd as (Hr & _). discriminate Hr.
  - apply (proj1 (X5_done_means_success (demo_host (Document two_records)) unit
                    (always 200) demo_args tt)).
    split; [reflexivity | discriminate].
Defined.


(** X6: for any document that has a length [n], well formed or not: at
    most [n] requests are issued and at most one of them is not accepted;
    what is printed begins with the header that announces [n]; every
    accepted request but possibly the last has its line on the console; a
    run that ends in an exception has printed no more than the header and
    one line per accepted request, and a run that returns has printed
    exactly the header, one line per accepted request, and ["Done!"]. *)
Theorem X6_counts
  (h : host) (Srv : Type) (serve : Srv -> request -> reply * Srv)
  (args : namespace) (s : Srv) (v : json) (n : nat) :
  files h (data args) = Document v ->
  py_len v = inr n ->
  let t := trace_of (main h serve args s) in
  length (requests t) <= n /\
  length (requests t) <= S (accepted t) /\
  accepted t <= length (console t) /\
  (console t <> [] -> exists rest, console t = header_line n :: rest) /\
  (forall e, result_of (main h serve args s) = inl e ->
             length (console t) <= S (accepted t)) /\
  (result_of (main h serve args s) = inr tt ->
   length (console t) = accepted t + 2).
Proof.
  intros F L. cbv zeta.
  destruct (py_iter_of_len _ _ L) as (items & I & Hn). subst n.
  destruct (stdout_encodes h (header_line (length items))) eqn:Hd.
  - pose proof (main_document h Srv serve args v items s F I Hd) as E.
    assert (Et : trace_of (main h serve args s) =
                 Printed (header_line (length items)) :: ClientOpened ::
                   (trace_of (for_each items (clear_sample h serve args) s) ++
                    ClientClosed ::
                    closing_lines
                      (finish h
                         (result_of
                            (for_each items (clear_sample h serve args) s))))
                   %list) by (rewrite E; reflexivity).
    assert (Er : result_of (main h serve args s) =
                 finish h
                   (result_of (for_each items (clear_sample h serve args) s)))
      by (rewrite E; reflexivity).
    destruct (main_loop_projections h Srv serve args items s Et)
      as (Hq & _ & Ha & Hc & _).
    destruct (loop_counts h Srv serve args items s)
      as (Ln & Lm & Lc & Ld & Lr).
    rewrite Hq, Ha, Hc, Er, console_closing.
    split; [exact Ln|]. split; [exact Lm|].
    destruct (finish h (result_of (for_each items (clear_sample h serve args) s)))
      as [e|[]] eqn:Fin.
    + rewrite app_nil_r. cbn [length].
      split; [lia|]. split; [intros _; eexists; reflexivity|].
      split; [intros e' _; lia | discriminate].
    + apply finish_inr in Fin. specialize (Lr Fin).
      cbn [length]. rewrite length_app. cbn [length].
      split; [lia|]. split; [intros _; eexists; reflexivity|].
      split; [discriminate | intros _; lia].
  - rewrite (main_header_refused h Srv serve args v items s F I Hd).
    cbn. repeat split; try lia; try discriminate.
    intros Hne. contradiction Hne. reflexivity.
Qed.

(** A list of three elements the second of which is not a record: one
    request, and the header and one line on the console. *)
Lemma X6_counts_witness :
  let doc := JList [record_A; JNull; record_B] in
  let run := main (demo_host (Document doc)) (always 200) demo_args tt in
  length (requests (trace_of run)) <= 3 /\
  (exists rest, console (trace_of run) = header_line 3 :: rest) /\
  length (console (trace_of run)) <= S (accepted (trace_of run)).
Proof.
  cbv zeta.
  pose proof (X6_counts (demo_host (Document (JList [record_A; JNull; record_B])))
                unit (always 200) demo_args tt
                (JList [record_A; JNull; record_B]) 3 eq_refl eq_refl)
    as (Hn & _ & _ & Hh & He & _).
  split; [exact Hn|]. split.
  - apply Hh. discriminate.
  - apply (He TypeError). reflexivity.
Defined.





